(** * Agri-hub advisory engines: a shallow embedding and its properties

    Two rule engines are embedded here, each from its source file:
    - [Main.AgriBrain.analyze] from [main.py] (keyed on the farm's crop);
    - [AgriAdvice.generate_agri_advice] from [agri_advice.py] (keyed on the
      growth stage).

    Both read a weather dictionary, compare readings with integer literals
    and append advisory strings to a list.  No arithmetic is done on the
    readings, only comparisons, and Python compares an int or a float with an
    int literal exactly; a finite reading is therefore a rational number here,
    and the two infinities and NaN of a float are kept beside it. *)

From Stdlib Require Import ZArith QArith Ascii String List Lia.
From stdpp Require Import gmap strings.
Close Scope Q_scope.
Open Scope string_scope.

(** ** The fragment of Python the two engines use *)

Module Py.

(** A number stored in a weather dictionary. *)
Inductive num : Type :=
| Fin (q : Q)
| Inf (negative : bool)
| NaN.

Definition of_Z (z : Z) : num := Fin (inject_Z z).

Definition Qltb (x y : Q) : bool :=
  (Qnum x * QDen y <? Qnum y * QDen x)%Z.

(** [x > c] and [x < c] against an integer literal [c]. *)
Definition gt (x : num) (c : Z) : bool :=
  match x with
  | Fin q => Qltb (inject_Z c) q
  | Inf negative => negb negative
  | NaN => false
  end.

Definition lt (x : num) (c : Z) : bool :=
  match x with
  | Fin q => Qltb q (inject_Z c)
  | Inf negative => negative
  | NaN => false
  end.

(** The only exception either engine can raise on a dictionary of
    numbers is the one of a failed subscript. *)
Inductive exn : Type :=
| KeyError (key : string).

Inductive result (A : Type) : Type :=
| Ok (a : A)
| Raise (e : exn).
Arguments Ok {A} a.
Arguments Raise {A} e.

Definition bind {A B : Type} (m : result A) (k : A -> result B) : result B :=
  match m with
  | Ok a => k a
  | Raise e => Raise e
  end.

Definition raises {A : Type} (m : result A) : bool :=
  match m with
  | Ok _ => false
  | Raise _ => true
  end.

Abbreviation dict := (gmap string num).

(** [d[k]] *)
Definition getitem (d : dict) (k : string) : result num :=
  match d !! k with
  | Some v => Ok v
  | None => Raise (KeyError k)
  end.

(** [d.get(k, dflt)] *)
Definition get (d : dict) (k : string) (dflt : num) : num :=
  match d !! k with
  | Some v => v
  | None => dflt
  end.

(** [l.append(x)], on a list that is local to the call. *)
Definition append {A : Type} (l : list A) (x : A) : list A := l ++ [x].

End Py.

Declare Scope py_scope.
Delimit Scope py_scope with py.
Notation "'let*' x := m 'in' k" := (Py.bind m (fun x => k))
  (at level 10, x name, m at level 100, k at level 200) : py_scope.
Open Scope py_scope.

(** ** main.py *)

Module Main.

Inductive CropType : Type :=
| MAIZE
| RICE
| CASSAVA.

(** [CropType.value] *)
Definition value (c : CropType) : string :=
  match c with
  | MAIZE => "Maize"
  | RICE => "Rice"
  | CASSAVA => "Cassava"
  end.

Definition CropType_eqb (a b : CropType) : bool :=
  match a, b with
  | MAIZE, MAIZE | RICE, RICE | CASSAVA, CASSAVA => true
  | _, _ => false
  end.

(** [planting_date] is a calendar date, kept as (year, month, day). *)
Record Farm : Type := {
  id : option Z;
  owner_name : string;
  crop_type : CropType;
  location_lat : Q;
  location_long : Q;
  planting_date : Z * Z * Z
}.

Module AgriBrain.

(** The f-string of the first [append]. *)
Definition header (farm : Farm) : string :=
  "Analyzing for " ++ value (crop_type farm) ++ " at "
    ++ owner_name farm ++ "...".

Definition maize_rain_alert : string :=
  "🔴 ALERT: Heavy rain (>20mm) detected. Do NOT apply fertilizer today to avoid wash-off.".
Definition maize_armyworm_warning : string :=
  "⚠️ WARNING: High risk of Fall Armyworm. Conditions (Temp > 28°C, Humidity < 50%) are favorable. Scout field immediately.".
Definition rice_blast_warning : string :=
  "⚠️ WARNING: High humidity (>80%) detected. High risk of Rice Blast disease. Monitor crop closely.".
Definition cassava_rain_alert : string :=
  "🔴 ALERT: Excessive rainfall (>50mm). Risk of root rot and waterlogging. Ensure drainage channels are clear.".
Definition conditions_normal : string :=
  "🟢 Conditions look normal. No specific alerts.".

(** The [if crop == ... elif ... elif ...] block, run on the list built
    so far. *)
Definition specific_rules (crop : CropType) (rain temp humidity : Py.num)
    (advice : list string) : list string :=
  if CropType_eqb crop MAIZE then
    let advice :=
      if Py.gt rain 20 then Py.append advice maize_rain_alert else advice in
    let advice :=
      if Py.gt temp 28 && Py.lt humidity 50
      then Py.append advice maize_armyworm_warning else advice in
    advice
  else if CropType_eqb crop RICE then
    if Py.gt humidity 80
    then Py.append advice rice_blast_warning else advice
  else if CropType_eqb crop CASSAVA then
    if Py.gt rain 50
    then Py.append advice cassava_rain_alert else advice
  else advice.

(** The list as it stands when the final length test is reached. *)
Definition before_fallback (weather : Py.dict) (farm : Farm) : list string :=
  let advice := [] in
  let crop := crop_type farm in
  let rain := Py.get weather "rainfall_mm" (Py.of_Z 0) in
  let temp := Py.get weather "temp" (Py.of_Z 0) in
  let humidity := Py.get weather "humidity" (Py.of_Z 0) in
  let advice := Py.append advice (header farm) in
  specific_rules crop rain temp humidity advice.

Definition analyze (weather : Py.dict) (farm : Farm) : list string :=
  let advice := before_fallback weather farm in
  let advice :=
    if (length advice =? 1)%nat
    then Py.append advice conditions_normal else advice in
  advice.

End AgriBrain.

End Main.

(** ** agri_advice.py *)

Module AgriAdvice.

Definition fertilizer_washoff : string :=
  "🔴 DO NOT apply fertilizer. Heavy rain (>20mm) will wash it away.".
Definition fertilizer_good : string :=
  "🟢 Good conditions to apply NPK fertilizer today.".
Definition armyworm_alert : string :=
  "⚠️ ALERT: High risk of Armyworm. Scout your field this evening.".
Definition harvest_rush : string :=
  "🔴 Rush harvest! Rain expected. Cover harvested crops immediately.".
Definition harvest_clear : string :=
  "🟢 Weather is clear for drying crops.".

(** 1. Fertilizer logic.  The second subscript of [rain_forecast_mm] and
    the one of [soil_moisture] are evaluated only on the [elif] path, and
    [and] evaluates its right operand only when the left one is true. *)
Definition fertilizer_logic (weather_data : Py.dict) (crop_stage : string)
    (advice : list string) : Py.result (list string) :=
  if String.eqb crop_stage "growing" then
    let* rain := Py.getitem weather_data "rain_forecast_mm" in
    if Py.gt rain 20 then Py.Ok (Py.append advice fertilizer_washoff)
    else
      let* rain := Py.getitem weather_data "rain_forecast_mm" in
      if Py.lt rain 5 then
        let* soil := Py.getitem weather_data "soil_moisture" in
        if Py.gt soil 40 then Py.Ok (Py.append advice fertilizer_good)
        else Py.Ok advice
      else Py.Ok advice
  else Py.Ok advice.

(** 2. Pest logic. *)
Definition pest_logic (weather_data : Py.dict) (advice : list string)
    : Py.result (list string) :=
  let* temp := Py.getitem weather_data "temp" in
  if Py.gt temp 28 then
    let* humidity := Py.getitem weather_data "humidity" in
    if Py.lt humidity 50 then Py.Ok (Py.append advice armyworm_alert)
    else Py.Ok advice
  else Py.Ok advice.

(** 3. Harvest logic. *)
Definition harvest_logic (weather_data : Py.dict) (crop_stage : string)
    (advice : list string) : Py.result (list string) :=
  if String.eqb crop_stage "harvesting" then
    let* rain := Py.getitem weather_data "rain_forecast_mm" in
    if Py.gt rain 10 then Py.Ok (Py.append advice harvest_rush)
    else Py.Ok (Py.append advice harvest_clear)
  else Py.Ok advice.

Definition generate_agri_advice (weather_data : Py.dict) (crop_stage : string)
    : Py.result (list string) :=
  let advice := [] in
  let* advice := fertilizer_logic weather_data crop_stage advice in
  let* advice := pest_logic weather_data advice in
  let* advice := harvest_logic weather_data crop_stage advice in
  Py.Ok advice.

(** The dictionary of the module's example usage, with its four keys. *)
Definition reading (temp rain humidity soil : Py.num) : Py.dict :=
  <["temp" := temp]> (<["rain_forecast_mm" := rain]>
    (<["humidity" := humidity]> (<["soil_moisture" := soil]> ∅))).

Definition current_weather : Py.dict :=
  reading (Py.of_Z 30) (Py.of_Z 25) (Py.of_Z 45) (Py.of_Z 60).

(** A dictionary with the three keys the docstring lists and no other. *)
Definition documented_reading (temp rain humidity : Py.num) : Py.dict :=
  <["temp" := temp]> (<["rain_forecast_mm" := rain]>
    (<["humidity" := humidity]> ∅)).

End AgriAdvice.

(** ** Notions the statements below are phrased with *)

Module Props.
Import Main Main.AgriBrain.

(** Whether one of the crop-specific conditions of [analyze] holds: the
    disjunction of the tests guarding an [append] in the crop's branch. *)
Definition rule_fired (weather : Py.dict) (farm : Farm) : bool :=
  let rain := Py.get weather "rainfall_mm" (Py.of_Z 0) in
  let temp := Py.get weather "temp" (Py.of_Z 0) in
  let humidity := Py.get weather "humidity" (Py.of_Z 0) in
  match crop_type farm with
  | MAIZE => Py.gt rain 20 || (Py.gt temp 28 && Py.lt humidity 50)
  | RICE => Py.gt humidity 80
  | CASSAVA => Py.gt rain 50
  end.

(** A farm of the seed data, with the crop left open. *)
Definition musa (crop : CropType) : Farm :=
  {| id := Some 1%Z; owner_name := "Musa Farms"; crop_type := crop;
     location_lat := 120022 # 10000; location_long := 85920 # 10000;
     planting_date := (2023, 5, 15)%Z |}.

(** The three growth stages named by the docstring of
    [generate_agri_advice]. *)
Definition stages : list string := ["planting"; "growing"; "harvesting"].

(** The dictionary [get_farm_advice] builds for [analyze]. *)
Definition live_weather (temp rain humidity : Py.num) : Py.dict :=
  <["temp" := temp]> (<["rainfall_mm" := rain]>
    (<["humidity" := humidity]> ∅)).

End Props.

(** ** main.py, the endpoints and the seed data

    The [farm] table is kept as a finite map from primary key to row, the
    session is that table passed in and out, and the three numbers
    [get_farm_advice] draws from [random.uniform] are arguments of its
    model.  The key the database gives to a row inserted without one is not
    decided by this code: it is the parameter [next_key] below. *)

Module Api.
Import Main Main.AgriBrain Props.

Inductive exn : Type :=
| HTTPException (status_code : Z) (detail : string)
| IntegrityError.

Inductive outcome (A : Type) : Type :=
| Return (a : A)
| Throw (e : exn).
Arguments Return {A} a.
Arguments Throw {A} e.

Definition and_then {A B : Type} (m : outcome A) (k : A -> outcome B)
    : outcome B :=
  match m with
  | Return a => k a
  | Throw e => Throw e
  end.

Definition with_id (farm : Farm) (key : Z) : Farm :=
  {| id := Some key; owner_name := owner_name farm;
     crop_type := crop_type farm; location_lat := location_lat farm;
     location_long := location_long farm;
     planting_date := planting_date farm |}.

(** [session.get(Farm, farm_id)] *)
Definition session_get (session : gmap Z Farm) (farm_id : Z) : option Farm :=
  session !! farm_id.

(** [session.exec(select(Farm)).first()]: a row of the table, [None] when
    the table is empty.  The caller only tests it for truth. *)
Definition first (session : gmap Z Farm) : option Farm :=
  match map_to_list session with
  | [] => None
  | (_, row) :: _ => Some row
  end.

(** The dictionary [get_farm_advice] returns. *)
Record advice_response : Type := {
  response_farm : string;
  response_crop : CropType;
  response_current_weather : gmap string Py.num;
  response_advice : list string
}.

(** The list [farms] of [seed_data]. *)
Definition farms : list Farm :=
  [ {| id := None; owner_name := "Musa Farms"; crop_type := MAIZE;
       location_lat := 120022 # 10000; location_long := 85920 # 10000;
       planting_date := (2023, 5, 15)%Z |};
    {| id := None; owner_name := "Chinedu Agro"; crop_type := RICE;
       location_lat := 64584 # 10000; location_long := 75464 # 10000;
       planting_date := (2023, 6, 1)%Z |};
    {| id := None; owner_name := "Yoruba Cassava Co"; crop_type := CASSAVA;
       location_lat := 73775 # 10000; location_long := 39470 # 10000;
       planting_date := (2023, 4, 10)%Z |};
    {| id := None; owner_name := "Biu Maize Enterprise"; crop_type := MAIZE;
       location_lat := 106129 # 10000; location_long := 121946 # 10000;
       planting_date := (2023, 5, 20)%Z |};
    {| id := None; owner_name := "Delta Rice Fields"; crop_type := RICE;
       location_lat := 55544 # 10000; location_long := 57932 # 10000;
       planting_date := (2023, 6, 10)%Z |} ].

Section Session.

Variable next_key : gmap Z Farm -> Z.

(** [session.add(farm)] as the commit carries it out: a row without a key
    gets the database's, a row with a key that is taken is refused.  The
    stored row is returned with the table. *)
Definition session_add (session : gmap Z Farm) (farm : Farm)
    : outcome (gmap Z Farm * Farm) :=
  match id farm with
  | None =>
      let key := next_key session in
      let row := with_id farm key in
      Return (<[key := row]> session, row)
  | Some key =>
      match session !! key with
      | Some _ => Throw IntegrityError
      | None => Return (<[key := farm]> session, farm)
      end
  end.

(** [for farm in farms: session.add(farm)] *)
Fixpoint add_all (session : gmap Z Farm) (farms : list Farm)
    : outcome (gmap Z Farm) :=
  match farms with
  | [] => Return session
  | farm :: farms =>
      and_then (session_add session farm)
        (fun added => add_all (fst added) farms)
  end.

(** The result is the table and the text under the key [message]. *)
Definition seed_data (session : gmap Z Farm) : outcome (gmap Z Farm * string) :=
  let existing_farms := first session in
  match existing_farms with
  | Some _ => Return (session, "Data already seeded.")
  | None =>
      and_then (add_all session farms)
        (fun session =>
           Return (session, "Seeded 5 Nigerian farms successfully."))
  end.

(** [session.add], [commit], [refresh], and the refreshed row returned. *)
Definition create_farm (farm : Farm) (session : gmap Z Farm)
    : outcome (gmap Z Farm * Farm) :=
  session_add session farm.

Definition seed_database (session : gmap Z Farm)
    : outcome (gmap Z Farm * string) :=
  seed_data session.

End Session.

(** [temp], [rain] and [humidity] are the three rounded draws. *)
Definition get_farm_advice (farm_id : Z) (session : gmap Z Farm)
    (temp rain humidity : Py.num) : outcome advice_response :=
  let farm := session_get session farm_id in
  match farm with
  | None => Throw (HTTPException 404 "Farm not found")
  | Some farm =>
      let current_weather := live_weather temp rain humidity in
      let alerts := analyze current_weather farm in
      Return {| response_farm := owner_name farm;
                response_crop := crop_type farm;
                response_current_weather := current_weather;
                response_advice := alerts |}
  end.

(** Every stored row carries the key it is stored under. *)
Definition keyed (session : gmap Z Farm) : Prop :=
  forall key row, session !! key = Some row -> id row = Some key.

(** The largest key in use, and the key SQLite gives a new row: one more
    than the largest in use, 1 in an empty table. *)
Definition max_key (session : gmap Z Farm) : option Z :=
  foldr (fun entry acc =>
           Some (match acc with
                 | Some m => Z.max (fst entry) m
                 | None => fst entry
                 end))
        None (map_to_list session).

Definition sqlite_rowid (session : gmap Z Farm) : Z :=
  match max_key session with
  | Some m => (m + 1)%Z
  | None => 1%Z
  end.

End Api.

(** The keys [generate_agri_advice] subscripts its dictionary with. *)
Module Keys.

Definition stage_keys : list string :=
  ["temp"; "rain_forecast_mm"; "humidity"; "soil_moisture"].

End Keys.

Import Main Main.AgriBrain AgriAdvice Props Keys.

(** ** Comparisons *)

Lemma Qltb_lt (x y : Q) : Py.Qltb x y = true <-> (x < y)%Q.
Proof. unfold Py.Qltb, Qlt. apply Z.ltb_lt. Qed.

Lemma gt_Fin (q : Q) (c : Z) : Py.gt (Py.Fin q) c = true <-> (inject_Z c < q)%Q.
Proof. apply Qltb_lt. Qed.

Lemma lt_Fin (q : Q) (c : Z) : Py.lt (Py.Fin q) c = true <-> (q < inject_Z c)%Q.
Proof. apply Qltb_lt. Qed.

Lemma gt_self (c : Z) : Py.gt (Py.of_Z c) c = false.
Proof.
  apply not_true_is_false. unfold Py.of_Z. rewrite gt_Fin. apply Qlt_irrefl.
Qed.

Lemma lt_self (c : Z) : Py.lt (Py.of_Z c) c = false.
Proof.
  apply not_true_is_false. unfold Py.of_Z. rewrite lt_Fin. apply Qlt_irrefl.
Qed.

(** ** Dictionary reads *)

Lemma getitem_Some (d : Py.dict) (k : string) (v : Py.num) :
  d !! k = Some v -> Py.getitem d k = Py.Ok v.
Proof. unfold Py.getitem. now intros ->. Qed.

Lemma getitem_None (d : Py.dict) (k : string) :
  d !! k = None -> Py.getitem d k = Py.Raise (Py.KeyError k).
Proof. unfold Py.getitem. now intros ->. Qed.

Lemma get_Some (d : Py.dict) (k : string) (v dflt : Py.num) :
  d !! k = Some v -> Py.get d k dflt = v.
Proof. unfold Py.get. now intros ->. Qed.

Lemma get_delete_insert (d : Py.dict) (k k' : string) (dflt : Py.num) :
  Py.get (delete k d) k' dflt = Py.get (<[k := dflt]> d) k' dflt.
Proof.
  unfold Py.get. destruct (decide (k = k')) as [-> | Hne].
  - now rewrite lookup_delete_eq, lookup_insert_eq.
  - now rewrite lookup_delete_ne, lookup_insert_ne.
Qed.

(** ** The messages are pairwise distinct *)

Lemma header_starts (farm : Farm) :
  exists s, header farm = String "A"%char s.
Proof. unfold header. simpl. eauto. Qed.

Lemma header_not_message (farm : Farm) (m : string) :
  In m [maize_rain_alert; maize_armyworm_warning; rice_blast_warning;
        cassava_rain_alert; conditions_normal] ->
  header farm <> m.
Proof.
  destruct (header_starts farm) as [s ->].
  simpl. intros [<- | [<- | [<- | [<- | [<- | []]]]]]; discriminate.
Qed.

Ltac distinct_messages :=
  match goal with
  | H : header _ = _ |- _ =>
      exfalso; revert H; apply header_not_message; simpl; tauto
  | H : _ = header _ |- _ =>
      exfalso; symmetry in H; revert H; apply header_not_message; simpl; tauto
  | H : @eq string _ _ |- _ => discriminate H
  end.

(** Membership in a short explicit list, decided by looking at the list. *)
Ltac in_list :=
  simpl; cbn [In] in *;
  intuition (try distinct_messages; try discriminate; try congruence).

(** ** The crop-based engine, [AgriBrain.analyze] *)

Ltac unfold_analyze :=
  unfold analyze, before_fallback, specific_rules, rule_fired, Py.append.

(** Case analysis on every threshold test in the goal. *)
Ltac case_conds :=
  repeat match goal with
         | |- context [Py.gt ?x ?c] => destruct (Py.gt x c)
         | |- context [Py.lt ?x ?c] => destruct (Py.lt x c)
         end;
  simpl.

(** What the crop branch leaves behind, one list per crop. *)
Lemma before_fallback_cases (weather : Py.dict) (farm : Farm) :
  let rain := Py.get weather "rainfall_mm" (Py.of_Z 0) in
  let temp := Py.get weather "temp" (Py.of_Z 0) in
  let humidity := Py.get weather "humidity" (Py.of_Z 0) in
  before_fallback weather farm =
    header farm ::
    match crop_type farm with
    | MAIZE =>
        (if Py.gt rain 20 then [maize_rain_alert] else []) ++
        (if Py.gt temp 28 && Py.lt humidity 50
         then [maize_armyworm_warning] else [])
    | RICE => if Py.gt humidity 80 then [rice_blast_warning] else []
    | CASSAVA => if Py.gt rain 50 then [cassava_rain_alert] else []
    end.
Proof.
  unfold_analyze. cbv zeta.
  destruct (crop_type farm); simpl;
    case_conds; reflexivity.
Qed.

Lemma before_fallback_header (weather : Py.dict) (farm : Farm) :
  exists rules, before_fallback weather farm = header farm :: rules.
Proof. rewrite before_fallback_cases. eauto. Qed.

Lemma fired_iff_longer (weather : Py.dict) (farm : Farm) :
  before_fallback weather farm = [header farm] <-> rule_fired weather farm = false.
Proof.
  rewrite before_fallback_cases. unfold rule_fired. cbv zeta.
  destruct (crop_type farm);
    case_conds; split; congruence.
Qed.

Lemma analyze_cases (weather : Py.dict) (farm : Farm) :
  analyze weather farm =
    if rule_fired weather farm then before_fallback weather farm
    else [header farm; conditions_normal].
Proof.
  unfold analyze. rewrite before_fallback_cases.
  unfold rule_fired, Py.append. cbv zeta.
  destruct (crop_type farm);
    case_conds; reflexivity.
Qed.

(** C1: for every weather dictionary and every farm (whose crop is one of
    Maize, Rice, Cassava by its type), [analyze] returns a list of at least
    two entries, never empty, whose first entry is the header naming the
    crop and the owner. *)
Theorem analyze_header_then_more (weather : Py.dict) (farm : Farm) :
  header farm =
    "Analyzing for " ++ value (crop_type farm) ++ " at "
      ++ owner_name farm ++ "..." /\
  (exists second rest, analyze weather farm = header farm :: second :: rest) /\
  hd_error (analyze weather farm) = Some (header farm) /\
  (2 <= length (analyze weather farm))%nat /\
  analyze weather farm <> [].
Proof.
  split; [reflexivity |].
  assert (H : exists second rest,
             analyze weather farm = header farm :: second :: rest).
  { rewrite analyze_cases, before_fallback_cases. cbv zeta.
    unfold rule_fired.
    destruct (crop_type farm);
      case_conds; eauto. }
  split; [exact H |].
  destruct H as (second & rest & ->). simpl.
  repeat split; [lia | discriminate].
Qed.

(** C4: the "conditions look normal" message is in the output exactly when
    no crop-specific rule fired, which is exactly when the list holds the
    header alone once the crop branch is done; the output is then the header
    followed by that message and nothing else, and otherwise it is the list
    the crop branch built, without that message. *)
Theorem normal_iff_no_rule_fired (weather : Py.dict) (farm : Farm) :
  (In conditions_normal (analyze weather farm)
     <-> rule_fired weather farm = false) /\
  (rule_fired weather farm = false
     <-> before_fallback weather farm = [header farm]) /\
  (rule_fired weather farm = false
     <-> length (before_fallback weather farm) = 1%nat) /\
  analyze weather farm =
    (if rule_fired weather farm then before_fallback weather farm
     else [header farm; conditions_normal]) /\
  (count_occ string_dec (analyze weather farm) conditions_normal <= 1)%nat.
Proof.
  assert (Hh : header farm <> conditions_normal)
    by (apply header_not_message; simpl; tauto).
  split; [| split; [| split; [| split]]].
  - rewrite analyze_cases, before_fallback_cases. cbv zeta. unfold rule_fired.
    destruct (crop_type farm);
      case_conds; in_list.
  - symmetry. apply fired_iff_longer.
  - rewrite <- fired_iff_longer.
    destruct (before_fallback_header weather farm) as [rules ->].
    destruct rules; simpl; split; intros H; try reflexivity; try discriminate.
  - apply analyze_cases.
  - rewrite analyze_cases, before_fallback_cases. cbv zeta. unfold rule_fired.
    destruct (crop_type farm);
      case_conds;
      repeat match goal with
             | |- context [string_dec ?a ?b] =>
                 destruct (string_dec a b); try distinct_messages
             end; lia.
Qed.

(** C10: a key missing from the weather dictionary is read as the number 0
    by [analyze], for each of its three keys, and nothing is raised (the
    function is total); on the empty dictionary the output is the header
    followed by the "conditions look normal" message, whatever the crop. *)
Theorem analyze_missing_keys_read_as_zero (weather : Py.dict) (farm : Farm) :
  analyze (delete "rainfall_mm" weather) farm
    = analyze (<["rainfall_mm" := Py.of_Z 0]> weather) farm /\
  analyze (delete "temp" weather) farm
    = analyze (<["temp" := Py.of_Z 0]> weather) farm /\
  analyze (delete "humidity" weather) farm
    = analyze (<["humidity" := Py.of_Z 0]> weather) farm /\
  analyze ∅ farm = [header farm; conditions_normal].
Proof.
  repeat split;
    try (unfold analyze, before_fallback;
         now rewrite !get_delete_insert).
  rewrite analyze_cases. unfold rule_fired, Py.get.
  rewrite !lookup_empty. now destruct (crop_type farm).
Qed.

(** ** The stage-based engine, [generate_agri_advice] *)

Lemma lt_5_not_gt_20 (x : Py.num) : Py.lt x 5 = true -> Py.gt x 20 = false.
Proof.
  destruct x as [q | [] | ]; simpl; try congruence.
  unfold Py.Qltb. simpl. rewrite Z.ltb_lt, Z.ltb_ge. lia.
Qed.

(** Each of the three blocks appends to the list it is given, so it can be
    run on the empty list and its messages appended afterwards. *)
Lemma fertilizer_logic_app (weather_data : Py.dict) (crop_stage : string)
    (advice : list string) :
  fertilizer_logic weather_data crop_stage advice =
    let* fert := fertilizer_logic weather_data crop_stage [] in
    Py.Ok (advice ++ fert)%list.
Proof.
  unfold fertilizer_logic, Py.append.
  destruct (String.eqb crop_stage "growing"); simpl; [| now rewrite app_nil_r].
  destruct (Py.getitem weather_data "rain_forecast_mm") as [rain |]; simpl;
    [| reflexivity].
  destruct (Py.gt rain 20); simpl; [reflexivity |].
  destruct (Py.lt rain 5); simpl; [| now rewrite app_nil_r].
  destruct (Py.getitem weather_data "soil_moisture") as [soil |]; simpl;
    [| reflexivity].
  destruct (Py.gt soil 40); simpl; now rewrite ?app_nil_r.
Qed.

Lemma pest_logic_app (weather_data : Py.dict) (advice : list string) :
  pest_logic weather_data advice =
    let* pest := pest_logic weather_data [] in
    Py.Ok (advice ++ pest)%list.
Proof.
  unfold pest_logic, Py.append.
  destruct (Py.getitem weather_data "temp") as [temp |]; simpl; [| reflexivity].
  destruct (Py.gt temp 28); simpl; [| now rewrite app_nil_r].
  destruct (Py.getitem weather_data "humidity") as [humidity |]; simpl;
    [| reflexivity].
  destruct (Py.lt humidity 50); simpl; now rewrite ?app_nil_r.
Qed.

Lemma harvest_logic_app (weather_data : Py.dict) (crop_stage : string)
    (advice : list string) :
  harvest_logic weather_data crop_stage advice =
    let* harvest := harvest_logic weather_data crop_stage [] in
    Py.Ok (advice ++ harvest)%list.
Proof.
  unfold harvest_logic, Py.append.
  destruct (String.eqb crop_stage "harvesting"); simpl;
    [| now rewrite app_nil_r].
  destruct (Py.getitem weather_data "rain_forecast_mm") as [rain |]; simpl;
    [| reflexivity].
  now destruct (Py.gt rain 10).
Qed.

Lemma generate_agri_advice_blocks (weather_data : Py.dict) (crop_stage : string) :
  generate_agri_advice weather_data crop_stage =
    let* fert := fertilizer_logic weather_data crop_stage [] in
    let* pest := pest_logic weather_data [] in
    let* harvest := harvest_logic weather_data crop_stage [] in
    Py.Ok (fert ++ pest ++ harvest)%list.
Proof.
  unfold generate_agri_advice.
  destruct (fertilizer_logic weather_data crop_stage []) as [fert |]; simpl;
    [| reflexivity].
  rewrite pest_logic_app.
  destruct (pest_logic weather_data []) as [pest |]; simpl; [| reflexivity].
  rewrite harvest_logic_app.
  destruct (harvest_logic weather_data crop_stage []) as [harvest |]; simpl;
    [| reflexivity].
  now rewrite app_assoc.
Qed.

(** What each block yields once the keys it reads are known. *)
Lemma fertilizer_logic_at (weather_data : Py.dict) (crop_stage : string)
    (rain : Py.num) :
  weather_data !! "rain_forecast_mm" = Some rain ->
  fertilizer_logic weather_data crop_stage [] =
    if String.eqb crop_stage "growing" then
      if Py.gt rain 20 then Py.Ok [fertilizer_washoff]
      else if Py.lt rain 5 then
        match weather_data !! "soil_moisture" with
        | Some soil => Py.Ok (if Py.gt soil 40 then [fertilizer_good] else [])
        | None => Py.Raise (Py.KeyError "soil_moisture")
        end
      else Py.Ok []
    else Py.Ok [].
Proof.
  intros Hrain. unfold fertilizer_logic, Py.append.
  rewrite (getitem_Some _ _ _ Hrain). simpl.
  destruct (String.eqb crop_stage "growing"); [| reflexivity].
  destruct (Py.gt rain 20); [reflexivity |].
  destruct (Py.lt rain 5); [| reflexivity].
  unfold Py.getitem.
  destruct (weather_data !! "soil_moisture") as [soil |]; simpl;
    [| reflexivity].
  now destruct (Py.gt soil 40).
Qed.

Lemma pest_logic_at (weather_data : Py.dict) (temp humidity : Py.num) :
  weather_data !! "temp" = Some temp ->
  weather_data !! "humidity" = Some humidity ->
  pest_logic weather_data [] =
    Py.Ok (if Py.gt temp 28 && Py.lt humidity 50 then [armyworm_alert] else []).
Proof.
  intros Htemp Hhum. unfold pest_logic, Py.append.
  rewrite (getitem_Some _ _ _ Htemp), (getitem_Some _ _ _ Hhum). simpl.
  now destruct (Py.gt temp 28), (Py.lt humidity 50).
Qed.

Lemma harvest_logic_at (weather_data : Py.dict) (crop_stage : string)
    (rain : Py.num) :
  weather_data !! "rain_forecast_mm" = Some rain ->
  harvest_logic weather_data crop_stage [] =
    Py.Ok (if String.eqb crop_stage "harvesting"
           then [if Py.gt rain 10 then harvest_rush else harvest_clear]
           else []).
Proof.
  intros Hrain. unfold harvest_logic, Py.append.
  rewrite (getitem_Some _ _ _ Hrain). simpl.
  destruct (String.eqb crop_stage "harvesting"); [| reflexivity].
  now destruct (Py.gt rain 10).
Qed.

Lemma harvest_logic_other (weather_data : Py.dict) (crop_stage : string) :
  String.eqb crop_stage "harvesting" = false ->
  harvest_logic weather_data crop_stage [] = Py.Ok [].
Proof. unfold harvest_logic. now intros ->. Qed.

Lemma fertilizer_logic_other (weather_data : Py.dict) (crop_stage : string) :
  String.eqb crop_stage "growing" = false ->
  fertilizer_logic weather_data crop_stage [] = Py.Ok [].
Proof. unfold fertilizer_logic. now intros ->. Qed.

(** Lookups in the four-key dictionary of the example usage. *)
Lemma reading_lookup (temp rain humidity soil : Py.num) :
  reading temp rain humidity soil !! "temp" = Some temp /\
  reading temp rain humidity soil !! "rain_forecast_mm" = Some rain /\
  reading temp rain humidity soil !! "humidity" = Some humidity /\
  reading temp rain humidity soil !! "soil_moisture" = Some soil.
Proof. unfold reading. repeat split; now simplify_map_eq. Qed.

Lemma documented_reading_lookup (temp rain humidity : Py.num) :
  documented_reading temp rain humidity !! "temp" = Some temp /\
  documented_reading temp rain humidity !! "rain_forecast_mm" = Some rain /\
  documented_reading temp rain humidity !! "humidity" = Some humidity /\
  documented_reading temp rain humidity !! "soil_moisture" = None.
Proof. unfold documented_reading. repeat split; now simplify_map_eq. Qed.


(** The whole function on a dictionary holding the three documented keys:
    only the fertilizer block can still raise. *)
Lemma generate_agri_advice_at (weather_data : Py.dict) (crop_stage : string)
    (temp rain humidity : Py.num) :
  weather_data !! "temp" = Some temp ->
  weather_data !! "rain_forecast_mm" = Some rain ->
  weather_data !! "humidity" = Some humidity ->
  generate_agri_advice weather_data crop_stage =
    let* fert := fertilizer_logic weather_data crop_stage [] in
    Py.Ok (fert
           ++ (if Py.gt temp 28 && Py.lt humidity 50
               then [armyworm_alert] else [])
           ++ (if String.eqb crop_stage "harvesting"
               then [if Py.gt rain 10 then harvest_rush else harvest_clear]
               else []))%list.
Proof.
  intros Htemp Hrain Hhum. rewrite generate_agri_advice_blocks.
  rewrite (pest_logic_at _ _ _ Htemp Hhum), (harvest_logic_at _ _ _ Hrain).
  reflexivity.
Qed.

(** With [soil_moisture] missing, the growing stage raises as soon as the
    rain forecast is under 5, and only then. *)
Lemma growing_dry_without_soil (weather_data : Py.dict) (rain : Py.num) :
  weather_data !! "rain_forecast_mm" = Some rain ->
  weather_data !! "soil_moisture" = None ->
  Py.lt rain 5 = true ->
  generate_agri_advice weather_data "growing"
    = Py.Raise (Py.KeyError "soil_moisture").
Proof.
  intros Hrain Hsoil Hdry. rewrite generate_agri_advice_blocks.
  rewrite (fertilizer_logic_at _ _ _ Hrain), Hsoil, Hdry.
  now rewrite (lt_5_not_gt_20 _ Hdry).
Qed.

Lemma growing_wet_without_soil (weather_data : Py.dict)
    (temp rain humidity : Py.num) :
  weather_data !! "temp" = Some temp ->
  weather_data !! "rain_forecast_mm" = Some rain ->
  weather_data !! "humidity" = Some humidity ->
  Py.lt rain 5 = false ->
  Py.raises (generate_agri_advice weather_data "growing") = false.
Proof.
  intros Htemp Hrain Hhum Hwet.
  rewrite (generate_agri_advice_at _ _ _ _ _ Htemp Hrain Hhum).
  rewrite (fertilizer_logic_at _ _ _ Hrain), Hwet. simpl.
  now destruct (Py.gt rain 20).
Qed.

(** C2: a dictionary with the three documented keys and no [soil_moisture],
    rain forecast 3, growing stage: the subscript [weather_data['soil_moisture']]
    raises [KeyError] instead of the branch being skipped. *)
Theorem growing_without_soil_moisture_raises :
  let weather_data :=
    documented_reading (Py.of_Z 25) (Py.of_Z 3) (Py.of_Z 60) in
  weather_data !! "soil_moisture" = None /\
  generate_agri_advice weather_data "growing"
    = Py.Raise (Py.KeyError "soil_moisture").
Proof.
  intros weather_data.
  destruct (documented_reading_lookup (Py.of_Z 25) (Py.of_Z 3) (Py.of_Z 60))
    as (_ & Hrain & _ & Hsoil).
  split; [exact Hsoil |].
  now apply (growing_dry_without_soil _ _ Hrain Hsoil).
Qed.

(** C3, as the code has it: a stage string outside planting, growing,
    harvesting is not rejected.  Both stage blocks are skipped and the result
    is the Armyworm alert alone when [temp > 28] and [humidity < 50], the
    empty list otherwise; no error is raised.  The crop of [analyze] comes
    from a [Farm], whose [crop_type] is one of the three members of
    [CropType]. *)
Theorem unknown_stage_gets_pest_logic_only (weather_data : Py.dict)
    (crop_stage : string) (temp humidity : Py.num) :
  ~ In crop_stage stages ->
  weather_data !! "temp" = Some temp ->
  weather_data !! "humidity" = Some humidity ->
  generate_agri_advice weather_data crop_stage =
    Py.Ok (if Py.gt temp 28 && Py.lt humidity 50
           then [armyworm_alert] else []) /\
  forall farm : Farm, In (value (crop_type farm)) ["Maize"; "Rice"; "Cassava"].
Proof.
  intros Hstage Htemp Hhum. split.
  - assert (Hg : String.eqb crop_stage "growing" = false).
    { apply String.eqb_neq. intros ->. apply Hstage. simpl. tauto. }
    assert (Hh : String.eqb crop_stage "harvesting" = false).
    { apply String.eqb_neq. intros ->. apply Hstage. simpl. tauto. }
    rewrite generate_agri_advice_blocks.
    rewrite (fertilizer_logic_other _ _ Hg), (harvest_logic_other _ _ Hh).
    rewrite (pest_logic_at _ _ _ Htemp Hhum). simpl.
    now rewrite app_nil_r.
  - intros farm. destruct (crop_type farm); simpl; tauto.
Qed.

Lemma unknown_stage_gets_pest_logic_only_witness :
  generate_agri_advice current_weather "flowering" = Py.Ok [armyworm_alert] /\
  forall farm : Farm, In (value (crop_type farm)) ["Maize"; "Rice"; "Cassava"].
Proof.
  apply (unknown_stage_gets_pest_logic_only current_weather "flowering"
           (Py.of_Z 30) (Py.of_Z 45)).
  - unfold stages. simpl. intros [H | [H | [H | []]]]; discriminate H.
  - reflexivity.
  - reflexivity.
Defined.

(** C3, as the claim has it, fails: the stage "flowering" is outside the
    enumeration and the call returns a list of advice, it raises nothing. *)
Lemma unknown_stage_not_rejected :
  ~ In "flowering" stages /\
  Py.raises (generate_agri_advice current_weather "flowering") = false /\
  generate_agri_advice current_weather "flowering" = Py.Ok [armyworm_alert].
Proof.
  split; [| split; reflexivity].
  unfold stages. simpl. intros [H | [H | [H | []]]]; discriminate H.
Qed.

(** ** Thresholds *)

Lemma gt_reflect (q : Q) (c : Z) :
  reflect (inject_Z c < q)%Q (Py.gt (Py.Fin q) c).
Proof. apply iff_reflect. symmetry. apply gt_Fin. Qed.

Lemma lt_reflect (q : Q) (c : Z) :
  reflect (q < inject_Z c)%Q (Py.lt (Py.Fin q) c).
Proof. apply iff_reflect. symmetry. apply lt_Fin. Qed.

(** Case analysis on every threshold test of a finite reading, keeping the
    order fact each outcome stands for. *)
Ltac case_thresholds :=
  repeat match goal with
         | |- context [Py.gt (Py.Fin ?q) ?c] => destruct (gt_reflect q c)
         | |- context [Py.lt (Py.Fin ?q) ?c] => destruct (lt_reflect q c)
         end;
  unfold inject_Z in *; simpl.

Lemma crop_rules_strict (weather : Py.dict) (farm : Farm)
    (rain temp humidity : Q) :
  weather !! "rainfall_mm" = Some (Py.Fin rain) ->
  weather !! "temp" = Some (Py.Fin temp) ->
  weather !! "humidity" = Some (Py.Fin humidity) ->
  (In maize_rain_alert (analyze weather farm)
     <-> crop_type farm = MAIZE /\ (20 < rain)%Q) /\
  (In maize_armyworm_warning (analyze weather farm)
     <-> crop_type farm = MAIZE /\ (28 < temp)%Q /\ (humidity < 50)%Q) /\
  (In rice_blast_warning (analyze weather farm)
     <-> crop_type farm = RICE /\ (80 < humidity)%Q) /\
  (In cassava_rain_alert (analyze weather farm)
     <-> crop_type farm = CASSAVA /\ (50 < rain)%Q).
Proof.
  intros Hrain Htemp Hhum.
  rewrite analyze_cases, before_fallback_cases. unfold rule_fired. cbv zeta.
  rewrite (get_Some _ _ _ _ Hrain), (get_Some _ _ _ _ Htemp),
    (get_Some _ _ _ _ Hhum).
  destruct (crop_type farm); case_thresholds; repeat split; in_list.
Qed.

Lemma stage_rules_strict (weather_data : Py.dict)
    (temp rain humidity soil : Q) :
  weather_data !! "temp" = Some (Py.Fin temp) ->
  weather_data !! "rain_forecast_mm" = Some (Py.Fin rain) ->
  weather_data !! "humidity" = Some (Py.Fin humidity) ->
  weather_data !! "soil_moisture" = Some (Py.Fin soil) ->
  exists growing harvesting,
    generate_agri_advice weather_data "growing" = Py.Ok growing /\
    generate_agri_advice weather_data "harvesting" = Py.Ok harvesting /\
    (In fertilizer_washoff growing <-> (20 < rain)%Q) /\
    (In fertilizer_good growing <-> (rain < 5)%Q /\ (40 < soil)%Q) /\
    (In armyworm_alert growing <-> (28 < temp)%Q /\ (humidity < 50)%Q) /\
    (In armyworm_alert harvesting <-> (28 < temp)%Q /\ (humidity < 50)%Q) /\
    (In harvest_rush harvesting <-> (10 < rain)%Q) /\
    (In harvest_clear harvesting <-> ~ (10 < rain)%Q).
Proof.
  intros Htemp Hrain Hhum Hsoil.
  rewrite !(generate_agri_advice_at _ _ _ _ _ Htemp Hrain Hhum).
  rewrite !(fertilizer_logic_at _ _ _ Hrain), Hsoil.
  assert (Hexcl : (rain < 5)%Q -> (20 < rain)%Q -> False).
  { intros Hdry Hwet. apply (Qlt_irrefl rain).
    apply (Qlt_trans _ 5 _ Hdry), (Qlt_trans _ 20 _); [reflexivity | exact Hwet]. }
  case_thresholds; eexists; eexists;
    (split; [reflexivity |]); (split; [reflexivity |]);
    repeat split; in_list.
Qed.

(** C5: every threshold is a strict inequality.  On finite readings, each
    message is in the output exactly when its reading lies strictly beyond
    its threshold (20, 28, 50, 80 and 50 in [analyze]; 20, 5, 40, 28, 50 and
    10 in [generate_agri_advice]), so a reading equal to the threshold never
    triggers its rule; for the Maize wash-off rule, rain 20 leaves the
    output without the alert and rain 20.1 puts it in. *)
Theorem thresholds_are_strict (weather weather_data : Py.dict) (farm : Farm)
    (rainfall temp humidity : Q) (temp' rain_forecast humidity' soil : Q) :
  weather !! "rainfall_mm" = Some (Py.Fin rainfall) ->
  weather !! "temp" = Some (Py.Fin temp) ->
  weather !! "humidity" = Some (Py.Fin humidity) ->
  weather_data !! "temp" = Some (Py.Fin temp') ->
  weather_data !! "rain_forecast_mm" = Some (Py.Fin rain_forecast) ->
  weather_data !! "humidity" = Some (Py.Fin humidity') ->
  weather_data !! "soil_moisture" = Some (Py.Fin soil) ->
  ((In maize_rain_alert (analyze weather farm)
      <-> crop_type farm = MAIZE /\ (20 < rainfall)%Q) /\
   (In maize_armyworm_warning (analyze weather farm)
      <-> crop_type farm = MAIZE /\ (28 < temp)%Q /\ (humidity < 50)%Q) /\
   (In rice_blast_warning (analyze weather farm)
      <-> crop_type farm = RICE /\ (80 < humidity)%Q) /\
   (In cassava_rain_alert (analyze weather farm)
      <-> crop_type farm = CASSAVA /\ (50 < rainfall)%Q)) /\
  (exists growing harvesting,
     generate_agri_advice weather_data "growing" = Py.Ok growing /\
     generate_agri_advice weather_data "harvesting" = Py.Ok harvesting /\
     (In fertilizer_washoff growing <-> (20 < rain_forecast)%Q) /\
     (In fertilizer_good growing
        <-> (rain_forecast < 5)%Q /\ (40 < soil)%Q) /\
     (In armyworm_alert growing <-> (28 < temp')%Q /\ (humidity' < 50)%Q) /\
     (In armyworm_alert harvesting
        <-> (28 < temp')%Q /\ (humidity' < 50)%Q) /\
     (In harvest_rush harvesting <-> (10 < rain_forecast)%Q) /\
     (In harvest_clear harvesting <-> ~ (10 < rain_forecast)%Q)) /\
  analyze (live_weather (Py.of_Z 25) (Py.of_Z 20) (Py.of_Z 60)) (musa MAIZE)
    = [header (musa MAIZE); conditions_normal] /\
  analyze (live_weather (Py.of_Z 25) (Py.Fin (201 # 10)) (Py.of_Z 60))
      (musa MAIZE)
    = [header (musa MAIZE); maize_rain_alert].
Proof.
  intros Hrain Htemp Hhum Htemp' Hrain' Hhum' Hsoil.
  split; [now apply crop_rules_strict |].
  split; [now apply (stage_rules_strict _ temp' rain_forecast humidity' soil) |].
  split; reflexivity.
Qed.

(** Every reading on its threshold at once: no rule of either engine fires. *)
Lemma thresholds_are_strict_witness :
  let weather := live_weather (Py.of_Z 28) (Py.of_Z 20) (Py.of_Z 50) in
  let weather_data :=
    reading (Py.of_Z 28) (Py.of_Z 20) (Py.of_Z 50) (Py.of_Z 40) in
  ~ In maize_rain_alert (analyze weather (musa MAIZE)) /\
  ~ In maize_armyworm_warning (analyze weather (musa MAIZE)) /\
  exists growing,
    generate_agri_advice weather_data "growing" = Py.Ok growing /\
    ~ In fertilizer_washoff growing /\ ~ In armyworm_alert growing.
Proof.
  intros weather weather_data.
  destruct (thresholds_are_strict weather weather_data (musa MAIZE)
              20 28 50 28 20 50 40)
    as ((Hm & Ha & _) & (growing & harvesting & Hg & _ & Hw & _ & Hp & _) & _);
    try reflexivity.
  split; [| split].
  - rewrite Hm. intros [_ H]. now apply Qlt_irrefl in H.
  - rewrite Ha. intros (_ & H & _). now apply Qlt_irrefl in H.
  - exists growing. split; [exact Hg | split].
    + rewrite Hw. apply Qlt_irrefl.
    + rewrite Hp. intros [H _]. now apply Qlt_irrefl in H.
Defined.

(** The remaining thresholds, each met exactly by one reading while the
    others are well inside: nothing fires; and the harvest test at 10. *)
Example boundary_values :
  analyze (live_weather (Py.of_Z 28) (Py.of_Z 0) (Py.of_Z 45)) (musa MAIZE)
    = [header (musa MAIZE); conditions_normal] /\
  analyze (live_weather (Py.of_Z 30) (Py.of_Z 0) (Py.of_Z 50)) (musa MAIZE)
    = [header (musa MAIZE); conditions_normal] /\
  analyze (live_weather (Py.of_Z 25) (Py.of_Z 0) (Py.of_Z 80)) (musa RICE)
    = [header (musa RICE); conditions_normal] /\
  analyze (live_weather (Py.of_Z 25) (Py.of_Z 50) (Py.of_Z 60)) (musa CASSAVA)
    = [header (musa CASSAVA); conditions_normal] /\
  generate_agri_advice
      (reading (Py.of_Z 25) (Py.of_Z 20) (Py.of_Z 60) (Py.of_Z 60)) "growing"
    = Py.Ok [] /\
  generate_agri_advice
      (reading (Py.of_Z 25) (Py.of_Z 5) (Py.of_Z 60) (Py.of_Z 60)) "growing"
    = Py.Ok [] /\
  generate_agri_advice
      (reading (Py.of_Z 25) (Py.of_Z 3) (Py.of_Z 60) (Py.of_Z 40)) "growing"
    = Py.Ok [] /\
  generate_agri_advice
      (reading (Py.of_Z 25) (Py.of_Z 3) (Py.of_Z 60) (Py.of_Z 45)) "growing"
    = Py.Ok [fertilizer_good] /\
  generate_agri_advice
      (reading (Py.of_Z 28) (Py.of_Z 0) (Py.of_Z 45) (Py.of_Z 0)) "planting"
    = Py.Ok [] /\
  generate_agri_advice
      (reading (Py.of_Z 30) (Py.of_Z 0) (Py.of_Z 50) (Py.of_Z 0)) "planting"
    = Py.Ok [] /\
  generate_agri_advice
      (reading (Py.of_Z 25) (Py.of_Z 10) (Py.of_Z 60) (Py.of_Z 0)) "harvesting"
    = Py.Ok [harvest_clear].
Proof. repeat split; reflexivity. Qed.

(** ** Stage rules *)

(** C6: in the growing stage with a rain forecast over 20, the wash-off
    message is emitted and the NPK message is not, whatever [soil_moisture]
    holds and whether it is there at all: the [elif] is never reached. *)
Theorem growing_heavy_rain_skips_npk (weather_data : Py.dict)
    (temp rain humidity : Py.num) :
  weather_data !! "temp" = Some temp ->
  weather_data !! "rain_forecast_mm" = Some rain ->
  weather_data !! "humidity" = Some humidity ->
  Py.gt rain 20 = true ->
  generate_agri_advice weather_data "growing" =
    Py.Ok (fertilizer_washoff ::
           (if Py.gt temp 28 && Py.lt humidity 50
            then [armyworm_alert] else [])) /\
  exists advice,
    generate_agri_advice weather_data "growing" = Py.Ok advice /\
    In fertilizer_washoff advice /\ ~ In fertilizer_good advice.
Proof.
  intros Htemp Hrain Hhum Hwet.
  assert (Heq : generate_agri_advice weather_data "growing" =
                Py.Ok (fertilizer_washoff ::
                       (if Py.gt temp 28 && Py.lt humidity 50
                        then [armyworm_alert] else []))).
  { rewrite (generate_agri_advice_at _ _ _ _ _ Htemp Hrain Hhum).
    rewrite (fertilizer_logic_at _ _ _ Hrain), Hwet. simpl.
    now rewrite app_nil_r. }
  split; [exact Heq |].
  eexists. split; [exact Heq |].
  destruct (Py.gt temp 28 && Py.lt humidity 50); in_list.
Qed.

Lemma growing_heavy_rain_skips_npk_witness :
  generate_agri_advice current_weather "growing" =
    Py.Ok [fertilizer_washoff; armyworm_alert] /\
  exists advice,
    generate_agri_advice current_weather "growing" = Py.Ok advice /\
    In fertilizer_washoff advice /\ ~ In fertilizer_good advice.
Proof.
  apply (growing_heavy_rain_skips_npk current_weather
           (Py.of_Z 30) (Py.of_Z 25) (Py.of_Z 45)); reflexivity.
Defined.

(** C7: in the harvesting stage exactly one harvest message is emitted, last
    in the list: the rush message when the rain forecast is over 10, the
    clear-for-drying message otherwise. *)
Theorem harvesting_one_harvest_message (weather_data : Py.dict)
    (temp rain humidity : Py.num) :
  weather_data !! "temp" = Some temp ->
  weather_data !! "rain_forecast_mm" = Some rain ->
  weather_data !! "humidity" = Some humidity ->
  exists advice,
    generate_agri_advice weather_data "harvesting" = Py.Ok advice /\
    advice =
      ((if Py.gt temp 28 && Py.lt humidity 50 then [armyworm_alert] else [])
       ++ [if Py.gt rain 10 then harvest_rush else harvest_clear])%list /\
    (In harvest_rush advice <-> Py.gt rain 10 = true) /\
    (In harvest_clear advice <-> Py.gt rain 10 = false) /\
    (count_occ string_dec advice harvest_rush
     + count_occ string_dec advice harvest_clear = 1)%nat.
Proof.
  intros Htemp Hrain Hhum. eexists.
  split.
  { rewrite (generate_agri_advice_at _ _ _ _ _ Htemp Hrain Hhum).
    rewrite fertilizer_logic_other by reflexivity. reflexivity. }
  split; [reflexivity |].
  destruct (Py.gt temp 28 && Py.lt humidity 50), (Py.gt rain 10);
    repeat split; try in_list; reflexivity.
Qed.

Lemma harvesting_one_harvest_message_witness :
  exists advice,
    generate_agri_advice
      (reading (Py.of_Z 25) (Py.of_Z 15) (Py.of_Z 60) (Py.of_Z 0))
      "harvesting" = Py.Ok advice /\
    advice = [harvest_rush] /\
    (In harvest_rush advice <-> true = true) /\
    (In harvest_clear advice <-> true = false) /\
    (count_occ string_dec advice harvest_rush
     + count_occ string_dec advice harvest_clear = 1)%nat.
Proof.
  apply (harvesting_one_harvest_message
           (reading (Py.of_Z 25) (Py.of_Z 15) (Py.of_Z 60) (Py.of_Z 0))
           (Py.of_Z 25) (Py.of_Z 15) (Py.of_Z 60)); reflexivity.
Defined.

(** The two harvest examples of the specification. *)
Example harvesting_examples :
  generate_agri_advice
    (reading (Py.of_Z 25) (Py.of_Z 15) (Py.of_Z 60) (Py.of_Z 0)) "harvesting"
    = Py.Ok [harvest_rush] /\
  generate_agri_advice
    (reading (Py.of_Z 25) (Py.of_Z 5) (Py.of_Z 60) (Py.of_Z 0)) "harvesting"
    = Py.Ok [harvest_clear].
Proof. split; reflexivity. Qed.

(** The pest test at every stage, on a dictionary that holds the four
    readings: [temp > 28] and [humidity < 50] put the Armyworm alert in the
    output whatever the stage string is; with stage planting, temp 30,
    humidity 45, rain 0 and soil moisture 0 the output is that alert alone. *)
Theorem armyworm_alert_at_every_stage (weather_data : Py.dict)
    (crop_stage : string) (temp rain humidity soil : Py.num) :
  weather_data !! "temp" = Some temp ->
  weather_data !! "rain_forecast_mm" = Some rain ->
  weather_data !! "humidity" = Some humidity ->
  weather_data !! "soil_moisture" = Some soil ->
  Py.gt temp 28 = true ->
  Py.lt humidity 50 = true ->
  (exists advice,
     generate_agri_advice weather_data crop_stage = Py.Ok advice /\
     In armyworm_alert advice) /\
  (forall advice,
     pest_logic weather_data advice
       = Py.Ok (advice ++ [armyworm_alert])%list) /\
  generate_agri_advice
    (reading (Py.of_Z 30) (Py.of_Z 0) (Py.of_Z 45) (Py.of_Z 0)) "planting"
    = Py.Ok [armyworm_alert].
Proof.
  intros Htemp Hrain Hhum Hsoil Hhot Hdry.
  split; [| split; [| reflexivity]]; cycle 1.
  { intros advice. rewrite pest_logic_app.
    now rewrite (pest_logic_at _ _ _ Htemp Hhum), Hhot, Hdry. }
  rewrite (generate_agri_advice_at _ _ _ _ _ Htemp Hrain Hhum).
  rewrite (fertilizer_logic_at _ _ _ Hrain), Hsoil, Hhot, Hdry. simpl.
  destruct (String.eqb crop_stage "growing");
    [destruct (Py.gt rain 20); [| destruct (Py.lt rain 5)] |];
    simpl; eexists; (split; [reflexivity |]);
    rewrite ?in_app_iff; simpl; tauto.
Qed.

Lemma armyworm_alert_at_every_stage_witness :
  (exists advice,
     generate_agri_advice current_weather "harvesting" = Py.Ok advice /\
     In armyworm_alert advice) /\
  (forall advice,
     pest_logic current_weather advice
       = Py.Ok (advice ++ [armyworm_alert])%list) /\
  generate_agri_advice
    (reading (Py.of_Z 30) (Py.of_Z 0) (Py.of_Z 45) (Py.of_Z 0)) "planting"
    = Py.Ok [armyworm_alert].
Proof.
  apply (armyworm_alert_at_every_stage current_weather "harvesting"
           (Py.of_Z 30) (Py.of_Z 25) (Py.of_Z 45) (Py.of_Z 60)); reflexivity.
Defined.

(** C8: with temp 30 and humidity 45 the Armyworm alert is due at every
    stage, and the pest block run on its own gives it; but on a dictionary
    with the three documented keys, rain forecast 3 and the growing stage,
    the subscript [weather_data['soil_moisture']] of the fertilizer block
    raises [KeyError] before the pest block is reached, and no alert is
    returned.  The same dictionary at the planting stage gets the alert. *)
Theorem armyworm_alert_lost_to_key_error :
  let weather_data :=
    documented_reading (Py.of_Z 30) (Py.of_Z 3) (Py.of_Z 45) in
  weather_data !! "temp" = Some (Py.of_Z 30) /\
  weather_data !! "humidity" = Some (Py.of_Z 45) /\
  Py.gt (Py.of_Z 30) 28 = true /\
  Py.lt (Py.of_Z 45) 50 = true /\
  generate_agri_advice weather_data "growing"
    = Py.Raise (Py.KeyError "soil_moisture") /\
  (forall advice,
     generate_agri_advice weather_data "growing" <> Py.Ok advice) /\
  pest_logic weather_data [] = Py.Ok [armyworm_alert] /\
  generate_agri_advice weather_data "planting" = Py.Ok [armyworm_alert].
Proof.
  intros weather_data. subst weather_data.
  destruct (documented_reading_lookup (Py.of_Z 30) (Py.of_Z 3) (Py.of_Z 45))
    as (Htemp & Hrain & Hhum & Hsoil).
  assert (Hraise : generate_agri_advice
                     (documented_reading (Py.of_Z 30) (Py.of_Z 3) (Py.of_Z 45))
                     "growing"
                   = Py.Raise (Py.KeyError "soil_moisture"))
    by now apply (growing_dry_without_soil _ _ Hrain Hsoil).
  split; [exact Htemp |]. split; [exact Hhum |].
  split; [reflexivity |]. split; [reflexivity |].
  split; [exact Hraise |].
  split; [intros advice; rewrite Hraise; discriminate |].
  split; [now rewrite (pest_logic_at _ _ _ Htemp Hhum) |].
  rewrite (generate_agri_advice_at _ _ _ _ _ Htemp Hrain Hhum).
  now rewrite fertilizer_logic_other by reflexivity.
Qed.

(** ** Length of the stage-based output *)

Lemma fertilizer_logic_length (weather_data : Py.dict) (crop_stage : string)
    (fert : list string) :
  fertilizer_logic weather_data crop_stage [] = Py.Ok fert ->
  (length fert <= 1)%nat /\ (fert <> [] -> crop_stage = "growing").
Proof.
  unfold fertilizer_logic, Py.append.
  destruct (String.eqb_spec crop_stage "growing") as [-> | Hne];
    [| intros [= <-]; simpl; split; [lia | congruence]].
  destruct (Py.getitem weather_data "rain_forecast_mm") as [rain |]; simpl;
    [| discriminate].
  destruct (Py.gt rain 20); [intros [= <-]; simpl; split; [lia | reflexivity] |].
  destruct (Py.lt rain 5); [| intros [= <-]; simpl; split; [lia | reflexivity]].
  destruct (Py.getitem weather_data "soil_moisture") as [soil |]; simpl;
    [| discriminate].
  destruct (Py.gt soil 40); intros [= <-]; simpl; split; (lia || reflexivity).
Qed.

Lemma pest_logic_length (weather_data : Py.dict) (pest : list string) :
  pest_logic weather_data [] = Py.Ok pest -> (length pest <= 1)%nat.
Proof.
  unfold pest_logic, Py.append.
  destruct (Py.getitem weather_data "temp") as [temp |]; simpl;
    [| discriminate].
  destruct (Py.gt temp 28); [| intros [= <-]; simpl; lia].
  destruct (Py.getitem weather_data "humidity") as [humidity |]; simpl;
    [| discriminate].
  destruct (Py.lt humidity 50); intros [= <-]; simpl; lia.
Qed.

Lemma harvest_logic_length (weather_data : Py.dict) (crop_stage : string)
    (harvest : list string) :
  harvest_logic weather_data crop_stage [] = Py.Ok harvest ->
  (length harvest <= 1)%nat /\ (harvest <> [] -> crop_stage = "harvesting").
Proof.
  unfold harvest_logic, Py.append.
  destruct (String.eqb_spec crop_stage "harvesting") as [-> | Hne];
    [| intros [= <-]; simpl; split; [lia | congruence]].
  destruct (Py.getitem weather_data "rain_forecast_mm") as [rain |]; simpl;
    [| discriminate].
  destruct (Py.gt rain 10); intros [= <-]; simpl; split; (lia || reflexivity).
Qed.

Lemma generate_agri_advice_total (temp rain humidity soil : Py.num)
    (crop_stage : string) :
  Py.raises
    (generate_agri_advice (reading temp rain humidity soil) crop_stage) = false.
Proof.
  destruct (reading_lookup temp rain humidity soil)
    as (Htemp & Hrain & Hhum & Hsoil).
  rewrite (generate_agri_advice_at _ _ _ _ _ Htemp Hrain Hhum).
  rewrite (fertilizer_logic_at _ _ _ Hrain), Hsoil.
  destruct (String.eqb crop_stage "growing");
    [destruct (Py.gt rain 20); [| destruct (Py.lt rain 5)] |]; reflexivity.
Qed.

(** C9: whenever [generate_agri_advice] returns, its list has at most two
    messages: at most one from the fertilizer block, at most one from the
    pest block and at most one from the harvest block, and the fertilizer and
    harvest blocks never both contribute, since one stage string cannot be
    both growing and harvesting.  It does return on every dictionary with the
    four readings; the empty list and a list of two are both reached. *)
Theorem stage_advice_at_most_two (weather_data : Py.dict)
    (crop_stage : string) (advice : list string) :
  generate_agri_advice weather_data crop_stage = Py.Ok advice ->
  (length advice <= 2)%nat /\
  (exists fert pest harvest,
     advice = (fert ++ pest ++ harvest)%list /\
     (length fert <= 1)%nat /\ (length pest <= 1)%nat /\
     (length harvest <= 1)%nat /\ (fert = [] \/ harvest = [])) /\
  (forall temp rain humidity soil stage,
     Py.raises
       (generate_agri_advice (reading temp rain humidity soil) stage) = false) /\
  generate_agri_advice
    (reading (Py.of_Z 25) (Py.of_Z 0) (Py.of_Z 60) (Py.of_Z 0)) "planting"
    = Py.Ok [] /\
  generate_agri_advice current_weather "growing"
    = Py.Ok [fertilizer_washoff; armyworm_alert].
Proof.
  intros Hret.
  assert (Hparts : exists fert pest harvest,
             advice = (fert ++ pest ++ harvest)%list /\
             (length fert <= 1)%nat /\ (length pest <= 1)%nat /\
             (length harvest <= 1)%nat /\ (fert = [] \/ harvest = [])).
  { rewrite generate_agri_advice_blocks in Hret.
    destruct (fertilizer_logic weather_data crop_stage []) as [fert |] eqn:Hf;
      simpl in Hret; [| discriminate].
    destruct (pest_logic weather_data []) as [pest |] eqn:Hp;
      simpl in Hret; [| discriminate].
    destruct (harvest_logic weather_data crop_stage []) as [harvest |] eqn:Hh;
      simpl in Hret; [| discriminate].
    injection Hret as <-.
    destruct (fertilizer_logic_length _ _ _ Hf) as [Lf Sf].
    destruct (harvest_logic_length _ _ _ Hh) as [Lh Sh].
    exists fert, pest, harvest.
    repeat split; try assumption; [exact (pest_logic_length _ _ Hp) |].
    destruct fert as [| m fert]; [now left | right].
    destruct harvest as [| m' harvest]; [reflexivity | exfalso].
    assert (Hg : crop_stage = "growing") by (apply Sf; discriminate).
    assert (Hv : crop_stage = "harvesting") by (apply Sh; discriminate).
    rewrite Hg in Hv. discriminate Hv. }
  split; [| split; [exact Hparts | split; [| split; reflexivity]]].
  - destruct Hparts as (fert & pest & harvest & -> & Lf & Lp & Lh & Hex).
    rewrite !length_app. destruct Hex as [-> | ->]; simpl; lia.
  - intros. apply generate_agri_advice_total.
Qed.

Lemma stage_advice_at_most_two_witness :
  generate_agri_advice current_weather "growing"
    = Py.Ok [fertilizer_washoff; armyworm_alert] /\
  (length [fertilizer_washoff; armyworm_alert] <= 2)%nat.
Proof.
  split; [reflexivity |].
  apply (stage_advice_at_most_two current_weather "growing"
           [fertilizer_washoff; armyworm_alert]).
  reflexivity.
Defined.


(** ** More on [AgriBrain.analyze] *)

(** The output has two or three entries.  It has three exactly for a Maize
    farm on which both Maize rules fire, and it is then the header, the rain
    alert and the Armyworm warning in that order; for Rice and Cassava it
    always has two. *)
Theorem analyze_two_or_three_entries (weather : Py.dict) (farm : Farm) :
  let rain := Py.get weather "rainfall_mm" (Py.of_Z 0) in
  let temp := Py.get weather "temp" (Py.of_Z 0) in
  let humidity := Py.get weather "humidity" (Py.of_Z 0) in
  (length (analyze weather farm) = 2%nat
   \/ length (analyze weather farm) = 3%nat) /\
  (length (analyze weather farm) = 3%nat
     <-> crop_type farm = MAIZE /\ Py.gt rain 20 = true /\
         Py.gt temp 28 = true /\ Py.lt humidity 50 = true) /\
  (length (analyze weather farm) = 3%nat
     <-> analyze weather farm
         = [header farm; maize_rain_alert; maize_armyworm_warning]).
Proof.
  cbv zeta. rewrite analyze_cases, before_fallback_cases.
  unfold rule_fired. cbv zeta.
  destruct (crop_type farm); case_conds;
    repeat split; intros; try tauto; try discriminate; try reflexivity;
    try (left; reflexivity); try (right; reflexivity);
    try (destruct H as (? & ? & ? & ?); discriminate).
Qed.

(** Only the keys [rainfall_mm], [temp] and [humidity] are read: setting or
    removing any other key of the dictionary leaves the output unchanged. *)
Theorem analyze_ignores_other_keys (weather : Py.dict) (farm : Farm)
    (key : string) (v : Py.num) :
  key <> "rainfall_mm" -> key <> "temp" -> key <> "humidity" ->
  analyze (<[key := v]> weather) farm = analyze weather farm /\
  analyze (delete key weather) farm = analyze weather farm.
Proof.
  intros Hr Ht Hh. unfold analyze, before_fallback, Py.get.
  now rewrite !lookup_insert_ne, !lookup_delete_ne by assumption.
Qed.

(** A forecast stored under the other engine's key is not seen: 100 mm
    under [rain_forecast_mm] leaves a Cassava farm without its alert. *)
Lemma analyze_ignores_other_keys_witness :
  (analyze (<["rain_forecast_mm" := Py.of_Z 100]> ∅) (musa CASSAVA)
     = analyze ∅ (musa CASSAVA) /\
   analyze (delete "rain_forecast_mm" ∅) (musa CASSAVA)
     = analyze ∅ (musa CASSAVA)) /\
  analyze ∅ (musa CASSAVA) = [header (musa CASSAVA); conditions_normal].
Proof.
  split; [| reflexivity].
  apply (analyze_ignores_other_keys ∅ (musa CASSAVA) "rain_forecast_mm"
           (Py.of_Z 100)); discriminate.
Defined.

(** Every entry of the output is the header, the conditions-normal message
    or an alert of the farm's own crop: no crop ever gets another crop's
    alert, whatever the dictionary holds. *)
Theorem analyze_alerts_belong_to_crop (weather : Py.dict) (farm : Farm)
    (message : string) :
  In message (analyze weather farm) ->
  message = header farm \/ message = conditions_normal \/
  (crop_type farm = MAIZE /\
   (message = maize_rain_alert \/ message = maize_armyworm_warning)) \/
  (crop_type farm = RICE /\ message = rice_blast_warning) \/
  (crop_type farm = CASSAVA /\ message = cassava_rain_alert).
Proof.
  rewrite analyze_cases, before_fallback_cases. unfold rule_fired. cbv zeta.
  destruct (crop_type farm); case_conds; cbn [In]; intuition auto.
Qed.

Lemma analyze_alerts_belong_to_crop_witness :
  rice_blast_warning = header (musa RICE) \/
  rice_blast_warning = conditions_normal \/
  (RICE = MAIZE /\
   (rice_blast_warning = maize_rain_alert
    \/ rice_blast_warning = maize_armyworm_warning)) \/
  (RICE = RICE /\ rice_blast_warning = rice_blast_warning) \/
  (RICE = CASSAVA /\ rice_blast_warning = cassava_rain_alert).
Proof.
  apply (analyze_alerts_belong_to_crop
           (live_weather (Py.of_Z 25) (Py.of_Z 0) (Py.of_Z 85)) (musa RICE)).
  vm_compute. right. left. reflexivity.
Defined.

(** ** The two engines side by side *)

(** On the same readings, a Maize farm gets the rain alert of [analyze]
    exactly when the growing stage gets the wash-off message of
    [generate_agri_advice], and the Armyworm warning exactly when the stage
    engine gives its Armyworm alert: the two engines test the same
    conditions, each under its own key for the rain. *)
Theorem engines_agree_on_washoff_and_armyworm (weather weather_data : Py.dict)
    (farm : Farm) (temp rain humidity soil : Py.num) :
  crop_type farm = MAIZE ->
  weather !! "temp" = Some temp ->
  weather !! "rainfall_mm" = Some rain ->
  weather !! "humidity" = Some humidity ->
  weather_data !! "temp" = Some temp ->
  weather_data !! "rain_forecast_mm" = Some rain ->
  weather_data !! "humidity" = Some humidity ->
  weather_data !! "soil_moisture" = Some soil ->
  exists advice,
    generate_agri_advice weather_data "growing" = Py.Ok advice /\
    (In maize_rain_alert (analyze weather farm)
       <-> In fertilizer_washoff advice) /\
    (In maize_armyworm_warning (analyze weather farm)
       <-> In armyworm_alert advice).
Proof.
  intros Hcrop Htemp Hrain Hhum Htemp' Hrain' Hhum' Hsoil.
  rewrite (generate_agri_advice_at _ _ _ _ _ Htemp' Hrain' Hhum').
  rewrite (fertilizer_logic_at _ _ _ Hrain'), Hsoil.
  rewrite analyze_cases, before_fallback_cases. unfold rule_fired. cbv zeta.
  rewrite (get_Some _ _ _ _ Hrain), (get_Some _ _ _ _ Htemp),
    (get_Some _ _ _ _ Hhum), Hcrop.
  case_conds; eexists; (split; [reflexivity |]); split; in_list.
Qed.

Lemma engines_agree_on_washoff_and_armyworm_witness :
  exists advice,
    generate_agri_advice AgriAdvice.current_weather "growing" = Py.Ok advice /\
    (In maize_rain_alert
        (analyze (live_weather (Py.of_Z 30) (Py.of_Z 25) (Py.of_Z 45))
           (musa MAIZE))
       <-> In fertilizer_washoff advice) /\
    (In maize_armyworm_warning
        (analyze (live_weather (Py.of_Z 30) (Py.of_Z 25) (Py.of_Z 45))
           (musa MAIZE))
       <-> In armyworm_alert advice).
Proof.
  apply (engines_agree_on_washoff_and_armyworm
           (live_weather (Py.of_Z 30) (Py.of_Z 25) (Py.of_Z 45))
           AgriAdvice.current_weather (musa MAIZE)
           (Py.of_Z 30) (Py.of_Z 25) (Py.of_Z 45) (Py.of_Z 60));
    reflexivity.
Defined.

(** ** More on [generate_agri_advice] *)

Ltac unfold_generate :=
  unfold generate_agri_advice, fertilizer_logic, pest_logic, harvest_logic,
    Py.getitem.

(** Only the four keys are read: setting or removing any other key leaves
    the result, list or exception, unchanged. *)
Theorem generate_ignores_other_keys (weather_data : Py.dict)
    (crop_stage key : string) (v : Py.num) :
  ~ In key stage_keys ->
  generate_agri_advice (<[key := v]> weather_data) crop_stage
    = generate_agri_advice weather_data crop_stage /\
  generate_agri_advice (delete key weather_data) crop_stage
    = generate_agri_advice weather_data crop_stage.
Proof.
  intros Hkey.
  assert (Hne : key <> "temp" /\ key <> "rain_forecast_mm" /\
                key <> "humidity" /\ key <> "soil_moisture").
  { unfold stage_keys in Hkey. simpl in Hkey. repeat split; intros ->; tauto. }
  destruct Hne as (Ht & Hr & Hh & Hs). unfold_generate.
  now rewrite !lookup_insert_ne, !lookup_delete_ne by assumption.
Qed.

Lemma generate_ignores_other_keys_witness :
  generate_agri_advice
      (<["rainfall_mm" := Py.of_Z 100]> AgriAdvice.current_weather) "growing"
    = generate_agri_advice AgriAdvice.current_weather "growing" /\
  generate_agri_advice
      (delete "rainfall_mm" AgriAdvice.current_weather) "growing"
    = generate_agri_advice AgriAdvice.current_weather "growing".
Proof.
  apply (generate_ignores_other_keys AgriAdvice.current_weather "growing"
           "rainfall_mm" (Py.of_Z 100)).
  unfold stage_keys. simpl. intros [H | [H | [H | [H | []]]]]; discriminate H.
Defined.

(** For a stage that is neither growing nor harvesting, only [temp] and
    [humidity] matter: two dictionaries holding the same under these two
    keys give the same result, list or exception, whatever else they hold
    or lack. *)
Theorem other_stage_reads_temp_and_humidity_only
    (weather_data weather_data' : Py.dict) (crop_stage : string) :
  crop_stage <> "growing" -> crop_stage <> "harvesting" ->
  weather_data !! "temp" = weather_data' !! "temp" ->
  weather_data !! "humidity" = weather_data' !! "humidity" ->
  generate_agri_advice weather_data crop_stage
    = generate_agri_advice weather_data' crop_stage.
Proof.
  intros Hg Hh Htemp Hhum.
  apply String.eqb_neq in Hg. apply String.eqb_neq in Hh.
  unfold_generate. now rewrite Hg, Hh, Htemp, Hhum.
Qed.

Lemma other_stage_reads_temp_and_humidity_only_witness :
  generate_agri_advice AgriAdvice.current_weather "planting"
    = generate_agri_advice
        (documented_reading (Py.of_Z 30) (Py.of_Z 0) (Py.of_Z 45)) "planting".
Proof.
  apply (other_stage_reads_temp_and_humidity_only AgriAdvice.current_weather
           (documented_reading (Py.of_Z 30) (Py.of_Z 0) (Py.of_Z 45))
           "planting"); (discriminate || reflexivity).
Defined.

(** [humidity] is read only when [temp] is over 28: with a [temp] that is
    not, removing [humidity] changes nothing, at any stage. *)
Theorem humidity_read_only_when_hot (weather_data : Py.dict)
    (crop_stage : string) (temp : Py.num) :
  weather_data !! "temp" = Some temp ->
  Py.gt temp 28 = false ->
  generate_agri_advice (delete "humidity" weather_data) crop_stage
    = generate_agri_advice weather_data crop_stage.
Proof.
  intros Htemp Hcool. unfold_generate.
  rewrite !lookup_delete_ne by discriminate. rewrite Htemp.
  destruct (String.eqb crop_stage "growing"); simpl.
  - destruct (weather_data !! "rain_forecast_mm") as [rain |]; simpl;
      [| reflexivity].
    destruct (Py.gt rain 20); simpl; [now rewrite Hcool |].
    destruct (Py.lt rain 5); simpl; [| now rewrite Hcool].
    destruct (weather_data !! "soil_moisture") as [soil |]; simpl;
      [| reflexivity].
    destruct (Py.gt soil 40); simpl; now rewrite Hcool.
  - now rewrite Hcool.
Qed.

Lemma humidity_read_only_when_hot_witness :
  generate_agri_advice
      (delete "humidity"
         (reading (Py.of_Z 28) (Py.of_Z 15) (Py.of_Z 45) (Py.of_Z 0)))
      "harvesting"
    = generate_agri_advice
        (reading (Py.of_Z 28) (Py.of_Z 15) (Py.of_Z 45) (Py.of_Z 0))
        "harvesting".
Proof.
  apply (humidity_read_only_when_hot
           (reading (Py.of_Z 28) (Py.of_Z 15) (Py.of_Z 45) (Py.of_Z 0))
           "harvesting" (Py.of_Z 28)); reflexivity.
Defined.

(** The only thing [generate_agri_advice] ever raises is a [KeyError] for
    one of its four keys, and only for a key the dictionary lacks. *)
Theorem generate_raises_only_for_missing_key (weather_data : Py.dict)
    (crop_stage : string) (e : Py.exn) :
  generate_agri_advice weather_data crop_stage = Py.Raise e ->
  exists key,
    e = Py.KeyError key /\ In key stage_keys /\ weather_data !! key = None.
Proof.
  unfold_generate. unfold stage_keys.
  destruct (weather_data !! "temp") as [temp |] eqn:Htemp;
    destruct (weather_data !! "rain_forecast_mm") as [rain |] eqn:Hrain;
    destruct (weather_data !! "humidity") as [humidity |] eqn:Hhum;
    destruct (weather_data !! "soil_moisture") as [soil |] eqn:Hsoil;
    destruct (String.eqb crop_stage "growing");
    destruct (String.eqb crop_stage "harvesting"); simpl;
    repeat match goal with
           | |- context [if ?b then _ else _] => destruct b; simpl
           end;
    intros [= <-]; eexists; (split; [reflexivity |]);
    (split; [simpl; tauto | assumption]).
Qed.

Lemma generate_raises_only_for_missing_key_witness :
  exists key,
    Py.KeyError "soil_moisture" = Py.KeyError key /\ In key stage_keys /\
    documented_reading (Py.of_Z 25) (Py.of_Z 3) (Py.of_Z 60) !! key = None.
Proof.
  apply (generate_raises_only_for_missing_key
           (documented_reading (Py.of_Z 25) (Py.of_Z 3) (Py.of_Z 60))
           "growing").
  reflexivity.
Defined.

(** The key reported is the first one missing in evaluation order: in the
    growing stage a missing [rain_forecast_mm] is reported whatever else is
    missing; at any other stage a missing [temp] is, also in the harvesting
    stage when [rain_forecast_mm] is missing too, since the pest block runs
    before the harvest block. *)
Theorem first_missing_key_is_reported (weather_data : Py.dict)
    (crop_stage : string) :
  crop_stage <> "growing" ->
  generate_agri_advice (delete "rain_forecast_mm" weather_data) "growing"
    = Py.Raise (Py.KeyError "rain_forecast_mm") /\
  generate_agri_advice (delete "temp" weather_data) crop_stage
    = Py.Raise (Py.KeyError "temp").
Proof.
  intros Hstage. apply String.eqb_neq in Hstage. split.
  - unfold_generate. simpl. now rewrite lookup_delete_eq.
  - unfold_generate. now rewrite Hstage, lookup_delete_eq.
Qed.

Lemma first_missing_key_is_reported_witness :
  generate_agri_advice (delete "rain_forecast_mm" ∅) "growing"
    = Py.Raise (Py.KeyError "rain_forecast_mm") /\
  generate_agri_advice (delete "temp" ∅) "harvesting"
    = Py.Raise (Py.KeyError "temp").
Proof.
  apply (first_missing_key_is_reported ∅ "harvesting"). discriminate.
Defined.

(** A rain forecast that is not a number passes every test as false: the
    growing stage gives no fertilizer message and never reads
    [soil_moisture], and the harvesting stage reports clear weather for
    drying. *)
Theorem nan_forecast_reads_as_clear (weather_data : Py.dict)
    (temp humidity : Py.num) :
  weather_data !! "temp" = Some temp ->
  weather_data !! "rain_forecast_mm" = Some Py.NaN ->
  weather_data !! "humidity" = Some humidity ->
  let pest :=
    if Py.gt temp 28 && Py.lt humidity 50 then [armyworm_alert] else [] in
  generate_agri_advice weather_data "growing" = Py.Ok pest /\
  generate_agri_advice (delete "soil_moisture" weather_data) "growing"
    = Py.Ok pest /\
  generate_agri_advice weather_data "harvesting"
    = Py.Ok (pest ++ [harvest_clear])%list.
Proof.
  intros Htemp Hrain Hhum pest.
  assert (Hrain' : delete "soil_moisture" weather_data !! "rain_forecast_mm"
                   = Some Py.NaN)
    by now rewrite lookup_delete_ne.
  assert (Htemp' : delete "soil_moisture" weather_data !! "temp" = Some temp)
    by now rewrite lookup_delete_ne.
  assert (Hhum' : delete "soil_moisture" weather_data !! "humidity"
                  = Some humidity)
    by now rewrite lookup_delete_ne.
  rewrite !(generate_agri_advice_at _ _ _ _ _ Htemp Hrain Hhum).
  rewrite (generate_agri_advice_at _ _ _ _ _ Htemp' Hrain' Hhum').
  rewrite (fertilizer_logic_at _ _ _ Hrain), (fertilizer_logic_at _ _ _ Hrain').
  rewrite fertilizer_logic_other by reflexivity.
  simpl. fold pest. now rewrite !app_nil_r.
Qed.

Lemma nan_forecast_reads_as_clear_witness :
  let weather_data :=
    documented_reading (Py.of_Z 25) Py.NaN (Py.of_Z 60) in
  generate_agri_advice weather_data "growing" = Py.Ok [] /\
  generate_agri_advice (delete "soil_moisture" weather_data) "growing"
    = Py.Ok [] /\
  generate_agri_advice weather_data "harvesting" = Py.Ok [harvest_clear].
Proof.
  apply (nan_forecast_reads_as_clear
           (documented_reading (Py.of_Z 25) Py.NaN (Py.of_Z 60))
           (Py.of_Z 25) (Py.of_Z 60)); reflexivity.
Defined.

(** ** The endpoints of main.py *)

Import Api.

Lemma first_None_iff (session : gmap Z Farm) :
  first session = None <-> session = ∅.
Proof.
  unfold first. rewrite <- map_to_list_empty_iff.
  destruct (map_to_list session) as [| [key row] rows]; split;
    intros H; (reflexivity || discriminate H).
Qed.

Lemma analyze_with_id (weather : Py.dict) (farm : Farm) (key : Z) :
  analyze weather (with_id farm key) = analyze weather farm.
Proof. reflexivity. Qed.


(** The key rule of SQLite never gives a key that is in use. *)
Lemma max_key_bound (rows : list (Z * Farm)) (key : Z) (row : Farm) :
  In (key, row) rows ->
  exists m,
    foldr (fun entry acc =>
             Some (match acc with
                   | Some m => Z.max (fst entry) m
                   | None => fst entry
                   end))
          None rows = Some m /\ (key <= m)%Z.
Proof.
  induction rows as [| [key' row'] rows IH]; simpl; [tauto |].
  intros [[= -> ->] | Hin].
  - destruct (foldr _ None rows); eexists; (split; [reflexivity | lia]).
  - destruct (IH Hin) as (m & -> & Hle). eexists. split; [reflexivity | lia].
Qed.

Lemma sqlite_rowid_fresh (session : gmap Z Farm) :
  session !! sqlite_rowid session = None.
Proof.
  destruct (session !! sqlite_rowid session) as [row |] eqn:Hrow;
    [exfalso | reflexivity].
  apply elem_of_map_to_list, list_elem_of_In in Hrow.
  apply max_key_bound in Hrow. destruct Hrow as (m & Hmax & Hle).
  unfold sqlite_rowid, max_key in Hle. rewrite Hmax in Hle. lia.
Qed.

Section Endpoints.

Variable next_key : gmap Z Farm -> Z.

Lemma session_add_new (session : gmap Z Farm) (farm : Farm) :
  id farm = None ->
  session_add next_key session farm
    = Return (<[next_key session := with_id farm (next_key session)]> session,
              with_id farm (next_key session)).
Proof. unfold session_add. now intros ->. Qed.

Lemma keyed_insert (session : gmap Z Farm) (key : Z) (row : Farm) :
  keyed session -> id row = Some key -> keyed (<[key := row]> session).
Proof.
  intros Hk Hid key' row' Hlook.
  apply lookup_insert_Some in Hlook as [[<- <-] | [_ Hlook]];
    [exact Hid | now apply Hk].
Qed.

(** A farm posted without an id, to a table in which the database's key is
    free, is stored under that key, and its advice is then served under it:
    the owner and crop are the posted ones and the advice is the one of the
    posted farm.  Every other key answers as before. *)
Theorem created_farm_is_advised (farm : Farm) (session : gmap Z Farm)
    (temp rain humidity : Py.num) :
  id farm = None ->
  session !! next_key session = None ->
  exists session' row,
    create_farm next_key farm session = Return (session', row) /\
    id row = Some (next_key session) /\
    get_farm_advice (next_key session) session' temp rain humidity
      = Return {| response_farm := owner_name farm;
                  response_crop := crop_type farm;
                  response_current_weather :=
                    live_weather temp rain humidity;
                  response_advice :=
                    analyze (live_weather temp rain humidity) farm |} /\
    forall other,
      other <> next_key session ->
      get_farm_advice other session' temp rain humidity
        = get_farm_advice other session temp rain humidity.
Proof.
  intros Hid Hfree. unfold create_farm. rewrite (session_add_new _ _ Hid).
  eexists. eexists. split; [reflexivity |]. split; [reflexivity |]. split.
  - unfold get_farm_advice, session_get. now rewrite lookup_insert_eq.
  - intros other Hne. unfold get_farm_advice, session_get.
    now rewrite lookup_insert_ne by congruence.
Qed.


(** What the unused key gives, run where the theorem leaves it open: the
    model of a database that hands out a key in use would replace that
    row, and the count would stay. *)
Example reused_key_replaces_row :
  let session : gmap Z Farm := {[ 1%Z := musa MAIZE ]} in
  let farm := {| id := None; owner_name := "Kano Rice"; crop_type := RICE;
                 location_lat := 12 # 1; location_long := 8 # 1;
                 planting_date := (2024, 6, 1)%Z |} in
  create_farm (fun _ => 1%Z) farm session
    = Return ({[ 1%Z := with_id farm 1 ]}, with_id farm 1).
Proof.
  intros session farm. unfold create_farm, session_add, session. simpl.
  now rewrite insert_singleton_eq.
Qed.

End Endpoints.

Lemma created_farm_is_advised_witness :
  let farm := {| id := None; owner_name := "Kano Rice"; crop_type := RICE;
                 location_lat := 12 # 1; location_long := 8 # 1;
                 planting_date := (2024, 6, 1)%Z |} in
  let session : gmap Z Farm := {[ 1%Z := musa MAIZE ]} in
  exists session' row,
    create_farm sqlite_rowid farm session = Return (session', row) /\
    id row = Some 2%Z /\
    get_farm_advice 2 session' (Py.of_Z 25) (Py.of_Z 0) (Py.of_Z 85)
      = Return {| response_farm := "Kano Rice";
                  response_crop := RICE;
                  response_current_weather :=
                    live_weather (Py.of_Z 25) (Py.of_Z 0) (Py.of_Z 85);
                  response_advice :=
                    analyze (live_weather (Py.of_Z 25) (Py.of_Z 0) (Py.of_Z 85))
                      farm |} /\
    forall other,
      other <> 2%Z ->
      get_farm_advice other session' (Py.of_Z 25) (Py.of_Z 0) (Py.of_Z 85)
        = get_farm_advice other session (Py.of_Z 25) (Py.of_Z 0) (Py.of_Z 85).
Proof.
  intros farm session.
  apply (created_farm_is_advised sqlite_rowid farm session
           (Py.of_Z 25) (Py.of_Z 0) (Py.of_Z 85)); reflexivity.
Defined.


Section Seeding.

Variable next_key : gmap Z Farm -> Z.

(** The loop of [seed_data] over rows without ids never fails, and leaves
    a table that is not empty when there was a row to add. *)
Lemma add_all_returns (rows : list Farm) (session : gmap Z Farm) :
  Forall (fun farm => id farm = None) rows ->
  exists session',
    add_all next_key session rows = Return session' /\
    (session <> ∅ \/ rows <> [] -> session' <> ∅).
Proof.
  intros Hrows. revert session.
  induction Hrows as [| farm rows Hid _ IH]; intros session; simpl.
  - exists session. split; [reflexivity |]. intros [H | H]; [exact H | tauto].
  - rewrite (session_add_new _ _ _ Hid). simpl.
    destruct (IH (<[next_key session := with_id farm (next_key session)]>
                    session)) as (session' & Hadd & Hne).
    exists session'. split; [exact Hadd |].
    intros _. apply Hne. left. apply insert_non_empty.
Qed.

Lemma farms_without_ids : Forall (fun farm => id farm = None) farms.
Proof. unfold farms. repeat constructor. Qed.

(** With every key the database gives being free, the loop stores each row
    under a key of its own: nothing is overwritten. *)
Lemma add_all_fresh (rows : list Farm) (session : gmap Z Farm) :
  (forall t, t !! next_key t = None) ->
  Forall (fun farm => id farm = None) rows ->
  exists session',
    add_all next_key session rows = Return session' /\
    session ⊆ session' /\
    size session' = (size session + length rows)%nat /\
    (keyed session -> keyed session') /\
    (forall farm, In farm rows ->
       exists key, session !! key = None /\
                   session' !! key = Some (with_id farm key)) /\
    (forall key row, session' !! key = Some row ->
       session !! key = Some row \/
       exists farm, In farm rows /\ row = with_id farm key).
Proof.
  intros Hfresh Hrows. revert session.
  induction Hrows as [| farm rows Hid _ IH]; intros session; simpl.
  - exists session. split; [reflexivity |]. split; [reflexivity |].
    split; [lia |]. split; [tauto |]. split; [intros farm [] | auto].
  - rewrite (session_add_new _ _ _ Hid). simpl.
    set (key := next_key session).
    destruct (IH (<[key := with_id farm key]> session))
      as (session' & Hadd & Hsub & Hsize & Hkeyed & Hin & Hout).
    assert (Hfree : session !! key = None) by apply Hfresh.
    exists session'. split; [exact Hadd |].
    split; [etrans; [apply insert_subseteq, Hfree | exact Hsub] |].
    split; [rewrite Hsize, map_size_insert_None by exact Hfree; lia |].
    split; [intros Hk; apply Hkeyed, keyed_insert; [exact Hk | reflexivity] |].
    split.
    + intros farm' [<- | Hfarm'].
      * exists key. split; [exact Hfree |].
        eapply lookup_weaken; [apply lookup_insert_eq | exact Hsub].
      * destruct (Hin farm' Hfarm') as (key' & Hnone & Hsome).
        exists key'. split; [| exact Hsome].
        apply lookup_insert_None in Hnone. tauto.
    + intros key' row Hlook.
      destruct (Hout key' row Hlook) as [Hold | (farm' & Hfarm' & ->)].
      * apply lookup_insert_Some in Hold as [[<- <-] | [_ Hold]];
          [right; exists farm; auto | left; exact Hold].
      * right. exists farm'. auto.
Qed.

Lemma seed_data_guard (session : gmap Z Farm) :
  session <> ∅ ->
  seed_data next_key session = Return (session, "Data already seeded.").
Proof.
  intros Hne. unfold seed_data.
  destruct (first session) as [row |] eqn:Hfirst; [reflexivity |].
  apply first_None_iff in Hfirst. contradiction.
Qed.

(** [seed_data] touches only an empty table: on any other it returns the
    table as it is, with the "already seeded" message, and so does the
    [/seed/] endpoint. *)
Theorem seed_data_leaves_seeded_table (session : gmap Z Farm) :
  session <> ∅ ->
  seed_data next_key session = Return (session, "Data already seeded.") /\
  seed_database next_key session = Return (session, "Data already seeded.").
Proof. intros Hne. split; now apply seed_data_guard. Qed.

(** [seed_data] never fails, and running it again on the table it returned
    changes nothing: the second run answers "already seeded". *)
Theorem seed_data_twice (session : gmap Z Farm) :
  exists seeded message,
    seed_data next_key session = Return (seeded, message) /\
    seed_data next_key seeded = Return (seeded, "Data already seeded.").
Proof.
  destruct (first session) as [row |] eqn:Hfirst.
  - assert (Hne : session <> ∅).
    { intros Hempty. apply first_None_iff in Hempty. congruence. }
    exists session, "Data already seeded.".
    split; now apply seed_data_guard.
  - destruct (add_all_returns farms session farms_without_ids)
      as (seeded & Hadd & Hne).
    exists seeded, "Seeded 5 Nigerian farms successfully.". split.
    + unfold seed_data. now rewrite Hfirst, Hadd.
    + apply seed_data_guard. apply Hne. right. discriminate.
Qed.

(** On an empty table, with every key the database gives being free,
    [seed_data] stores exactly five rows, each under the key in its id: the
    five farms of the list, and nothing else. *)
Theorem seed_data_on_empty_table :
  (forall t, t !! next_key t = None) ->
  exists seeded,
    seed_data next_key ∅
      = Return (seeded, "Seeded 5 Nigerian farms successfully.") /\
    size seeded = 5%nat /\
    keyed seeded /\
    (forall farm, In farm farms ->
       exists key, seeded !! key = Some (with_id farm key)) /\
    (forall key row, seeded !! key = Some row ->
       exists farm, In farm farms /\ row = with_id farm key).
Proof.
  intros Hfresh.
  destruct (add_all_fresh farms ∅ Hfresh farms_without_ids)
    as (seeded & Hadd & _ & Hsize & Hkeyed & Hin & Hout).
  exists seeded. split; [| split; [| split; [| split]]].
  - unfold seed_data.
    assert (Hfirst : first (∅ : gmap Z Farm) = None)
      by now apply first_None_iff.
    now rewrite Hfirst, Hadd.
  - rewrite Hsize, map_size_empty. reflexivity.
  - apply Hkeyed. intros key row Hlook. now rewrite lookup_empty in Hlook.
  - intros farm Hfarm. destruct (Hin farm Hfarm) as (key & _ & Hsome). eauto.
  - intros key row Hlook.
    destruct (Hout key row Hlook) as [Hold | Hnew]; [| exact Hnew].
    now rewrite lookup_empty in Hold.
Qed.

End Seeding.

Lemma seed_data_leaves_seeded_table_witness :
  seed_data sqlite_rowid {[ 1%Z := musa MAIZE ]}
    = Return ({[ 1%Z := musa MAIZE ]}, "Data already seeded.") /\
  seed_database sqlite_rowid {[ 1%Z := musa MAIZE ]}
    = Return ({[ 1%Z := musa MAIZE ]}, "Data already seeded.").
Proof.
  apply (seed_data_leaves_seeded_table sqlite_rowid {[ 1%Z := musa MAIZE ]}).
  apply insert_non_empty.
Defined.

(** With the key rule of SQLite the five farms get the keys 1 to 5. *)
Lemma seed_data_on_empty_table_witness :
  exists seeded,
    seed_data sqlite_rowid ∅
      = Return (seeded, "Seeded 5 Nigerian farms successfully.") /\
    size seeded = 5%nat /\
    keyed seeded /\
    (forall farm, In farm farms ->
       exists key, seeded !! key = Some (with_id farm key)) /\
    (forall key row, seeded !! key = Some row ->
       exists farm, In farm farms /\ row = with_id farm key).
Proof.
  apply (seed_data_on_empty_table sqlite_rowid). exact sqlite_rowid_fresh.
Defined.

Example seeded_keys :
  match seed_data sqlite_rowid ∅ with
  | Return (seeded, _) =>
      (owner_name <$> seeded !! 1%Z, owner_name <$> seeded !! 5%Z,
       owner_name <$> seeded !! 6%Z)
  | Throw _ => (None, None, None)
  end = (Some "Musa Farms", Some "Delta Rice Fields", None).
Proof. reflexivity. Qed.
